(** * The packaging descriptor of law-memo-pdf-to-epub

    The repository's only source file is [setup.py]: an import of
    [setup] from setuptools and one call of it with five constant keyword
    arguments.  This development embeds

    - the text of the file ([setup_py]),
    - the fragment of Python's lexical and syntactic structure the file is
      written in ([tokenize], [parse_module]),
    - the abstract syntax of the file ([setup_module]), and
    - the evaluation of that syntax ([exec_module]), in which [setup]
      records the keyword arguments it is called with,

    and proves the properties of the installation metadata from them. *)

From Stdlib Require Import Ascii String List Bool Arith Lia.
From stdpp Require Import base option gmap strings list fin_maps.
Import ListNotations.
Open Scope string_scope.
Open Scope list_scope.

(** ** The source text *)

Module Source.

(** [setup.py], byte for byte: 244 bytes, every line ended by a newline. *)
Definition setup_py : string :=
"#!/usr/bin/env python3

from setuptools import setup

setup(
    name       = 'law-memo-pdf-to-epub',
    version    = '1.0',
    py_modules = [],
    scripts    = ['law-memo-pdf-to-epub'],
    install_requires = ['pdfminer.six', 'ebooklib']
)
".

Definition newline : ascii := ascii_of_nat 10.

(** The pieces of a text between its newlines, as Python's
    [str.split('\n')] returns them: a text of [n] newlines has [n + 1]
    pieces, the last one being what follows the last newline. *)
Fixpoint split_newlines (s : string) : list string :=
  match s with
  | EmptyString => [EmptyString]
  | String c rest =>
      if Ascii.eqb c newline then EmptyString :: split_newlines rest
      else match split_newlines rest with
           | [] => [String c EmptyString]
           | piece :: pieces => String c piece :: pieces
           end
  end.

(** The lines of a text, as Python's [str.splitlines] and [readlines]
    return them (and as [wc -l] counts them for a text whose last line is
    terminated): a final newline ends the last line and starts no new one. *)
Fixpoint drop_last_empty (pieces : list string) : list string :=
  match pieces with
  | [] => []
  | [EmptyString] => []
  | piece :: rest => piece :: drop_last_empty rest
  end.

Definition splitlines (s : string) : list string :=
  drop_last_empty (split_newlines s).

Definition line_count (s : string) : nat := List.length (splitlines s).

(** The number of newline characters of a text. *)
Fixpoint count_newlines (s : string) : nat :=
  match s with
  | EmptyString => 0
  | String c rest =>
      (if Ascii.eqb c newline then 1 else 0) + count_newlines rest
  end.

Fixpoint last_char (s : string) : option ascii :=
  match s with
  | EmptyString => None
  | String c EmptyString => Some c
  | String _ rest => last_char rest
  end.

End Source.

(** ** Abstract syntax *)

Module Ast.

(** The expressions and statements of the fragment of Python the
    descriptor is written in, named after the nodes of Python's [ast]
    module: [Constant] (of a string), [List], [Name], [Call] with its
    positional arguments and keywords; [ImportFrom] and [Expr]. *)
#[warnings="-register-all"]
Inductive expr : Type :=
  | Constant (value : string)
  | List_ (elts : list expr)
  | Name (id : string)
  | Call (func : expr) (args : list expr) (keywords : list (string * expr)).

Inductive stmt : Type :=
  | ImportFrom (module : string) (names : list string)
  | Expr (value : expr).

Definition module_ : Type := list stmt.

(** A stronger induction principle than the generated one: the
    hypotheses cover the expressions nested in lists. *)
Section expr_ind'.
Variable P : expr -> Prop.
Hypothesis HConstant : forall s, P (Constant s).
Hypothesis HList : forall elts, Forall P elts -> P (List_ elts).
Hypothesis HName : forall id, P (Name id).
Hypothesis HCall : forall func args keywords,
    P func -> Forall P args -> Forall (fun kw => P (snd kw)) keywords ->
    P (Call func args keywords).

Fixpoint expr_ind' (e : expr) : P e :=
  match e with
  | Constant s => HConstant s
  | List_ elts =>
      HList elts
        ((fix go (l : list expr) : Forall P l :=
            match l with
            | [] => @List.Forall_nil _ P
            | x :: r => @List.Forall_cons _ P x r (expr_ind' x) (go r)
            end) elts)
  | Name id => HName id
  | Call func args keywords =>
      HCall func args keywords (expr_ind' func)
        ((fix go (l : list expr) : Forall P l :=
            match l with
            | [] => @List.Forall_nil _ P
            | x :: r => @List.Forall_cons _ P x r (expr_ind' x) (go r)
            end) args)
        ((fix go (l : list (string * expr))
            : Forall (fun kw => P (snd kw)) l :=
            match l with
            | [] => @List.Forall_nil _ _
            | kw :: r =>
                @List.Forall_cons _ (fun kw => P (snd kw)) kw r
                  (expr_ind' (snd kw)) (go r)
            end) keywords)
  end.
End expr_ind'.

(** An expression is a literal when it is built of string constants and
    list displays only: it reads no name and calls nothing. *)
Fixpoint is_literal (e : expr) : bool :=
  match e with
  | Constant _ => true
  | List_ elts => forallb is_literal elts
  | Name _ => false
  | Call _ _ _ => false
  end.

(** [setup.py] as a syntax tree: lines 3 and 5 to 11 of the file. *)
Definition setup_keywords : list (string * expr) :=
  [ ("name", Constant "law-memo-pdf-to-epub");
    ("version", Constant "1.0");
    ("py_modules", List_ []);
    ("scripts", List_ [Constant "law-memo-pdf-to-epub"]);
    ("install_requires", List_ [Constant "pdfminer.six"; Constant "ebooklib"]) ].

Definition setup_call : expr := Call (Name "setup") [] setup_keywords.

Definition setup_module : module_ :=
  [ ImportFrom "setuptools" ["setup"];
    Expr setup_call ].

End Ast.

(** ** Lexical and syntactic structure *)

Module Syntax.
Import Ast.

Inductive token : Type :=
  | NAME (s : string)
  | STRING (s : string)
  | LPAR | RPAR | LSQB | RSQB | COMMA | EQUAL
  | NEWLINE.

Definition is_letter (c : ascii) : bool :=
  let n := nat_of_ascii c in
  (Nat.leb 65 n && Nat.leb n 90) || (Nat.leb 97 n && Nat.leb n 122).

Definition is_digit (c : ascii) : bool :=
  let n := nat_of_ascii c in Nat.leb 48 n && Nat.leb n 57.

Definition is_ident_start (c : ascii) : bool :=
  is_letter c || Ascii.eqb c "_".

Definition is_ident_char (c : ascii) : bool :=
  is_ident_start c || is_digit c.

Definition is_blank (c : ascii) : bool :=
  Ascii.eqb c " " || Nat.eqb (nat_of_ascii c) 9.

Definition backslash : ascii := ascii_of_nat 92.

(** What the tokenizer is in the middle of. *)
Inductive mode : Type :=
  | Plain
  | InComment
  | InName (acc : string)
  | InString (acc : string).

(** The tokenizer's state: [depth] counts the open brackets (newlines and
    indentation are not significant inside them), [fresh] says that the
    current logical line has no token yet, [indented] that it started
    with blanks, and [out] holds the tokens so far, last first. *)
Record lexer : Type := Lexer {
  lex_mode : mode;
  depth : nat;
  fresh : bool;
  indented : bool;
  out : list token
}.

Definition lexer_init : lexer :=
  {| lex_mode := Plain; depth := 0; fresh := true; indented := false; out := [] |}.

Definition snoc (s : string) (c : ascii) : string :=
  s +:+ String c EmptyString.

(** A token starts: at the top level a line that has a token may not be
    indented (Python's "unexpected indent"). *)
Definition start_token (st : lexer) : option lexer :=
  if fresh st && indented st && Nat.eqb (depth st) 0 then None
  else Some {| lex_mode := Plain; depth := depth st; fresh := false;
               indented := indented st; out := out st |}.

Definition emit (t : token) (st : lexer) : lexer :=
  {| lex_mode := lex_mode st; depth := depth st; fresh := fresh st;
     indented := indented st; out := t :: out st |}.

Definition with_mode (m : mode) (st : lexer) : lexer :=
  {| lex_mode := m; depth := depth st; fresh := fresh st;
     indented := indented st; out := out st |}.

Definition with_depth (d : nat) (st : lexer) : lexer :=
  {| lex_mode := lex_mode st; depth := d; fresh := fresh st;
     indented := indented st; out := out st |}.

(** The end of a physical line: inside brackets it is skipped, a line
    without tokens yields nothing, any other line yields NEWLINE. *)
Definition end_of_line (st : lexer) : lexer :=
  if negb (Nat.eqb (depth st) 0) then with_mode Plain st
  else if fresh st then
    {| lex_mode := Plain; depth := 0; fresh := true; indented := false;
       out := out st |}
  else
    {| lex_mode := Plain; depth := 0; fresh := true; indented := false;
       out := NEWLINE :: out st |}.

(** One character read outside names, strings and comments. *)
Definition plain_char (st : lexer) (c : ascii) : option lexer :=
  if Ascii.eqb c Source.newline then Some (end_of_line st)
  else if is_blank c then
    Some (if fresh st && Nat.eqb (depth st) 0
          then {| lex_mode := Plain; depth := depth st; fresh := true;
                  indented := true; out := out st |}
          else st)
  else if Ascii.eqb c "#" then Some (with_mode InComment st)
  else if Ascii.eqb c "'" then with_mode (InString "") <$> start_token st
  else if is_ident_start c then
    with_mode (InName (String c EmptyString)) <$> start_token st
  else if Ascii.eqb c "(" then
    (fun st' => with_depth (S (depth st')) (emit LPAR st')) <$> start_token st
  else if Ascii.eqb c "[" then
    (fun st' => with_depth (S (depth st')) (emit LSQB st')) <$> start_token st
  else if Ascii.eqb c ")" then
    match depth st with
    | 0 => None
    | S d => (fun st' => with_depth d (emit RPAR st')) <$> start_token st
    end
  else if Ascii.eqb c "]" then
    match depth st with
    | 0 => None
    | S d => (fun st' => with_depth d (emit RSQB st')) <$> start_token st
    end
  else if Ascii.eqb c "," then emit COMMA <$> start_token st
  else if Ascii.eqb c "=" then emit EQUAL <$> start_token st
  else None.

(** One character read.  String literals are the single-quoted ones
    without escapes; other literals are outside the fragment. *)
Definition lex_char (st : lexer) (c : ascii) : option lexer :=
  match lex_mode st with
  | Plain => plain_char st c
  | InComment =>
      if Ascii.eqb c Source.newline then Some (end_of_line st) else Some st
  | InName acc =>
      if is_ident_char c then Some (with_mode (InName (snoc acc c)) st)
      else plain_char (with_mode Plain (emit (NAME acc) st)) c
  | InString acc =>
      if Ascii.eqb c "'" then Some (with_mode Plain (emit (STRING acc) st))
      else if Ascii.eqb c Source.newline || Ascii.eqb c backslash then None
      else Some (with_mode (InString (snoc acc c)) st)
  end.

(** The end of the text: an open string or bracket is an error, and a
    last line without its newline is ended. *)
Definition lex_end (st : lexer) : option (list token) :=
  match lex_mode st with
  | InString _ => None
  | InName acc =>
      if Nat.eqb (depth st) 0 then Some (rev (NEWLINE :: NAME acc :: out st)) else None
  | Plain | InComment =>
      if Nat.eqb (depth st) 0
      then Some (rev (if fresh st then out st else NEWLINE :: out st))
      else None
  end.

Fixpoint lex (st : lexer) (s : string) : option (list token) :=
  match s with
  | EmptyString => lex_end st
  | String c rest =>
      match lex_char st c with
      | Some st' => lex st' rest
      | None => None
      end
  end.

Definition tokenize (s : string) : option (list token) := lex lexer_init s.

(** Python's reserved words: none of them is a [Name]. *)
Definition keywords : list string :=
  [ "False"; "None"; "True"; "and"; "as"; "assert"; "async"; "await";
    "break"; "class"; "continue"; "def"; "del"; "elif"; "else"; "except";
    "finally"; "for"; "from"; "global"; "if"; "import"; "in"; "is";
    "lambda"; "nonlocal"; "not"; "or"; "pass"; "raise"; "return"; "try";
    "while"; "with"; "yield" ].

Definition is_keyword (x : string) : bool :=
  existsb (String.eqb x) keywords.

(** Recursive descent over the tokens; [fuel] bounds the nesting and the
    number of items, and the length of the token list is always enough.
    Trailing commas are accepted as Python accepts them; a positional
    argument after a keyword argument and a repeated keyword are the
    syntax errors they are in Python. *)
Fixpoint parse_expr (fuel : nat) (ts : list token)
  : option (expr * list token) :=
  match fuel with
  | 0 => None
  | S fuel' =>
      match ts with
      | STRING s :: rest => Some (Constant s, rest)
      | LSQB :: rest =>
          '(elts, rest') ← parse_elts fuel' rest;
          Some (List_ elts, rest')
      | NAME x :: LPAR :: rest =>
          if is_keyword x then None
          else
            '(args, kws, rest') ← parse_arguments fuel' rest;
            Some (Call (Name x) args kws, rest')
      | NAME x :: rest =>
          if is_keyword x then None else Some (Name x, rest)
      | _ => None
      end
  end
with parse_elts (fuel : nat) (ts : list token)
  : option (list expr * list token) :=
  match fuel with
  | 0 => None
  | S fuel' =>
      match ts with
      | RSQB :: rest => Some ([], rest)
      | _ =>
          '(e, rest) ← parse_expr fuel' ts;
          match rest with
          | COMMA :: rest' =>
              '(es, rest'') ← parse_elts fuel' rest';
              Some (e :: es, rest'')
          | RSQB :: rest' => Some ([e], rest')
          | _ => None
          end
      end
  end
with parse_arguments (fuel : nat) (ts : list token)
  : option (list expr * list (string * expr) * list token) :=
  match fuel with
  | 0 => None
  | S fuel' =>
      match ts with
      | RPAR :: rest => Some ([], [], rest)
      | NAME k :: EQUAL :: rest =>
          if is_keyword k then None
          else
            '(e, rest') ← parse_expr fuel' rest;
            '(args, kws, rest'') ←
              match rest' with
              | COMMA :: r => parse_arguments fuel' r
              | RPAR :: r => Some ([], [], r)
              | _ => None
              end;
            match args with
            | [] =>
                if existsb (String.eqb k) (map fst kws) then None
                else Some ([], (k, e) :: kws, rest'')
            | _ :: _ => None
            end
      | _ =>
          '(e, rest') ← parse_expr fuel' ts;
          '(args, kws, rest'') ←
            match rest' with
            | COMMA :: r => parse_arguments fuel' r
            | RPAR :: r => Some ([], [], r)
            | _ => None
            end;
          Some (e :: args, kws, rest'')
      end
  end.

(** The names of [from m import a, b, ...], up to the end of the line. *)
Fixpoint parse_import_names (ts : list token)
  : option (list string * list token) :=
  match ts with
  | NAME n :: NEWLINE :: rest =>
      if is_keyword n then None else Some ([n], rest)
  | NAME n :: COMMA :: rest =>
      if is_keyword n then None
      else '(ns, rest') ← parse_import_names rest; Some (n :: ns, rest')
  | _ => None
  end.

(** A statement of the fragment: a [from]-import of a module without
    dots, or an expression, on a logical line of its own. *)
Definition parse_stmt (ts : list token) : option (stmt * list token) :=
  match ts with
  | NAME kw :: NAME m :: NAME kw' :: rest =>
      if String.eqb kw "from" then
        if String.eqb kw' "import" && negb (is_keyword m) then
          '(ns, rest') ← parse_import_names rest;
          Some (ImportFrom m ns, rest')
        else None
      else None
  | _ =>
      '(e, rest) ← parse_expr (S (List.length ts)) ts;
      match rest with
      | NEWLINE :: rest' => Some (Expr e, rest')
      | _ => None
      end
  end.

Fixpoint parse_stmts (fuel : nat) (ts : list token) : option module_ :=
  match ts with
  | [] => Some []
  | _ :: _ =>
      match fuel with
      | 0 => None
      | S fuel' =>
          '(s, rest) ← parse_stmt ts;
          body ← parse_stmts fuel' rest;
          Some (s :: body)
      end
  end.

Definition parse_module (text : string) : option module_ :=
  ts ← tokenize text;
  parse_stmts (List.length ts) ts.

End Syntax.

(** ** Evaluation *)

Module Eval.
Import Ast.

(** The values of the fragment: strings, lists, the function [setup] of
    setuptools, and the distribution object a call of it returns. *)
#[warnings="-register-all"]
Inductive value : Type :=
  | VStr (s : string)
  | VList (items : list value)
  | VSetup
  | VDistribution (attrs : list (string * value)).

(** The interpreter's state: the module's global namespace, and the
    keyword arguments of every call of [setup] so far, in call order. *)
Record state : Type := State {
  globals : gmap string value;
  distributions : list (list (string * value))
}.

(** Computations that read and change the state and may raise. *)
Definition M (A : Type) : Type := state -> option (A * state).

Definition ret {A : Type} (a : A) : M A := fun st => Some (a, st).

Definition raise {A : Type} : M A := fun _ => None.

Definition bind {A B : Type} (m : M A) (k : A -> M B) : M B :=
  fun st =>
    match m st with
    | Some (a, st') => k a st'
    | None => None
    end.

Notation "x <-- m ;; k" := (bind m (fun x => k))
  (at level 20, m at level 99, k at level 200, only parsing).

(** A name is read from the global namespace; an unbound name raises
    (NameError). *)
Definition load_name (id : string) : M value :=
  fun st =>
    match globals st !! id with
    | Some v => Some (v, st)
    | None => None
    end.

Definition store_name (id : string) (v : value) : M unit :=
  fun st =>
    Some (tt, {| globals := <[id := v]> (globals st);
                 distributions := distributions st |}).

(** [setup] takes keyword arguments only; it makes the distribution
    described by them.  Nothing else of the fragment can be
    called (TypeError). *)
Definition call (f : value) (args : list value)
    (kwargs : list (string * value)) : M value :=
  match f, args with
  | VSetup, [] =>
      fun st =>
        Some (VDistribution kwargs,
              {| globals := globals st;
                 distributions := distributions st ++ [kwargs] |})
  | _, _ => raise
  end.

(** A computation for every element of a list, from left to right. *)
Definition mapM {A B : Type} (f : A -> M B) : list A -> M (list B) :=
  fix go (l : list A) : M (list B) :=
    match l with
    | [] => ret []
    | x :: r => v <-- f x ;; vs <-- go r ;; ret (v :: vs)
    end.

(** Expressions are evaluated in Python's order: the callee, the
    positional arguments from left to right, then the keyword arguments
    from left to right. *)
Fixpoint eval (e : expr) : M value :=
  match e with
  | Constant s => ret (VStr s)
  | List_ elts => vs <-- mapM eval elts ;; ret (VList vs)
  | Name id => load_name id
  | Call func args keywords =>
      f <-- eval func ;;
      vs <-- mapM eval args ;;
      kvs <-- mapM (fun kw => v <-- eval (snd kw) ;; ret (fst kw, v))
                keywords ;;
      call f vs kvs
  end.

(** What [from m import n] finds: setuptools exports [setup]; no other
    module is installed in the model (ImportError). *)
Definition import_from (m n : string) : option value :=
  if String.eqb m "setuptools" && String.eqb n "setup" then Some VSetup
  else None.

Fixpoint exec_import (m : string) (names : list string) : M unit :=
  match names with
  | [] => ret tt
  | n :: r =>
      match import_from m n with
      | Some v => _ <-- store_name n v ;; exec_import m r
      | None => raise
      end
  end.

Definition exec_stmt (s : stmt) : M unit :=
  match s with
  | ImportFrom m names => exec_import m names
  | Expr e => _ <-- eval e ;; ret tt
  end.

Fixpoint exec_module (body : module_) : M unit :=
  match body with
  | [] => ret tt
  | s :: r => _ <-- exec_stmt s ;; exec_module r
  end.

(** A run of a module from the global namespace [g]. *)
Definition run (g : gmap string value) (body : module_) : option state :=
  match exec_module body {| globals := g; distributions := [] |} with
  | Some (_, st) => Some st
  | None => None
  end.

(** The value of a literal, without any state (Python's
    [ast.literal_eval] on the fragment). *)
Definition all_some {A : Type} : list (option A) -> option (list A) :=
  fix go (l : list (option A)) : option (list A) :=
    match l with
    | [] => Some []
    | Some v :: r =>
        match go r with Some vs => Some (v :: vs) | None => None end
    | None :: _ => None
    end.

Fixpoint literal_value (e : expr) : option value :=
  match e with
  | Constant s => Some (VStr s)
  | List_ elts => VList <$> all_some (map literal_value elts)
  | Name _ => None
  | Call _ _ _ => None
  end.

(** The values of keyword arguments that are all literals. *)
Definition literal_keywords (keywords : list (string * expr))
  : option (list (string * value)) :=
  all_some (map (fun kw => pair (fst kw) <$> literal_value (snd kw)) keywords).

End Eval.

(** ** The installation metadata *)

Module Metadata.
Import Ast Eval.

(** The keyword arguments of the one call of [setup] that a run of a
    descriptor's text from the namespace [g] makes. *)
Definition metadata_of (text : string) (g : gmap string value)
  : option (list (string * value)) :=
  match Syntax.parse_module text with
  | Some body =>
      match run g body with
      | Some st =>
          match distributions st with
          | [attrs] => Some attrs
          | _ => None
          end
      | None => None
      end
  | None => None
  end.

Definition metadata (g : gmap string value)
  : option (list (string * value)) :=
  metadata_of Source.setup_py g.

(** The argument passed under a keyword. *)
Fixpoint attr (k : string) (attrs : list (string * value)) : option value :=
  match attrs with
  | [] => None
  | (k', v) :: r => if String.eqb k k' then Some v else attr k r
  end.

(** A list of strings, as an argument such as [install_requires] is. *)
Definition as_strings (v : value) : option (list string) :=
  match v with
  | VList items =>
      (fix go (l : list value) : option (list string) :=
         match l with
         | [] => Some []
         | VStr s :: r =>
             match go r with Some ss => Some (s :: ss) | None => None end
         | _ :: _ => None
         end) items
  | _ => None
  end.

(** A list argument that may be absent: setuptools takes an absent
    [py_modules], [packages] or [ext_modules] as empty. *)
Definition items_of (k : string) (attrs : list (string * value))
  : list value :=
  match attr k attrs with
  | Some (VList items) => items
  | _ => []
  end.

(** What an installation makes importable: the modules, packages and
    extension modules the descriptor lists. *)
Definition importable (attrs : list (string * value)) : list value :=
  items_of "py_modules" attrs ++ items_of "packages" attrs
    ++ items_of "ext_modules" attrs.

End Metadata.

(** ** Requirement strings *)

Module Requirement.
Import Syntax.

(** The fragment of the requirement grammar of PEP 508 made of a
    distribution name and version specifiers: [name], or
    [name op version, op version, ...].  Extras, markers and URLs are
    outside the fragment. *)

Definition is_alnum (c : ascii) : bool := is_letter c || is_digit c.

Definition is_name_char (c : ascii) : bool :=
  is_alnum c || Ascii.eqb c "." || Ascii.eqb c "_" || Ascii.eqb c "-".

(** A distribution name: letters, digits, [.], [_] and [-], starting and
    ending with a letter or digit. *)
Definition bare_name (s : string) : bool :=
  match list_ascii_of_string s with
  | [] => false
  | c :: cs =>
      is_alnum c && forallb is_name_char cs && is_alnum (List.last cs c)
  end.

(** The comparison operators of version specifiers (PEP 440), a longer
    operator before its prefixes. *)
Definition operators : list string :=
  [ "==="; "~="; "=="; "!="; "<="; ">="; "<"; ">" ].

Fixpoint occurs (sub s : string) : bool :=
  String.prefix sub s ||
  match s with
  | EmptyString => false
  | String _ rest => occurs sub rest
  end.

Definition has_version_specifier (s : string) : bool :=
  existsb (fun op => occurs op s) operators.

Record requirement : Type := Req {
  req_name : string;
  req_specifiers : list (string * string)
}.

Fixpoint drop_blanks (cs : list ascii) : list ascii :=
  match cs with
  | c :: r => if is_blank c then drop_blanks r else cs
  | [] => []
  end.

Definition trim (cs : list ascii) : list ascii :=
  rev (drop_blanks (rev (drop_blanks cs))).

Fixpoint span_name (cs : list ascii) : list ascii * list ascii :=
  match cs with
  | c :: r =>
      if is_name_char c
      then let '(n, rest) := span_name r in (c :: n, rest)
      else ([], cs)
  | [] => ([], [])
  end.

Fixpoint split_commas (cs : list ascii) : list (list ascii) :=
  match cs with
  | [] => [[]]
  | c :: r =>
      if Ascii.eqb c ","
      then [] :: split_commas r
      else match split_commas r with
           | [] => [[c]]
           | clause :: clauses => (c :: clause) :: clauses
           end
  end.

Fixpoint strip_operator (ops : list string) (clause : string)
  : option (string * string) :=
  match ops with
  | [] => None
  | op :: ops' =>
      if String.prefix op clause
      then Some (op, String.substring (String.length op)
                       (String.length clause - String.length op) clause)
      else strip_operator ops' clause
  end.

Definition parse_specifier (clause : list ascii) : option (string * string) :=
  match strip_operator operators (string_of_list_ascii (trim clause)) with
  | Some (op, v) =>
      match trim (list_ascii_of_string v) with
      | [] => None
      | v' => Some (op, string_of_list_ascii v')
      end
  | None => None
  end.

Definition parse_requirement (s : string) : option requirement :=
  let '(n, rest) := span_name (trim (list_ascii_of_string s)) in
  let name := string_of_list_ascii n in
  if bare_name name then
    match drop_blanks rest with
    | [] => Some {| req_name := name; req_specifiers := [] |}
    | rest' =>
        specs ← Eval.all_some (map parse_specifier (split_commas rest'));
        Some {| req_name := name; req_specifiers := specs |}
    end
  else None.

(** An installed version satisfies a requirement when it passes every
    one of its specifiers; [compare op v installed] is the comparison of
    PEP 440, which the descriptor never reaches. *)
Section Satisfaction.
Variable version : Type.
Variable compare : string -> string -> version -> bool.

Definition satisfied_by (installed : version) (r : requirement) : bool :=
  forallb (fun spec => compare (fst spec) (snd spec) installed)
    (req_specifiers r).

Definition satisfies (installed : version) (s : string) : bool :=
  match parse_requirement s with
  | Some r => satisfied_by installed r
  | None => false
  end.
End Satisfaction.

End Requirement.

(** ** The categories of installation metadata *)

Module Category.

(** The four kinds of installation metadata the specification lists,
    and the arguments of [setup] that carry them. *)
Inductive category : Type :=
  | PackageName
  | PackageVersion
  | ScriptEntryPoint
  | DependencyList.

Definition category_of (keyword : string) : option category :=
  if String.eqb keyword "name" then Some PackageName
  else if String.eqb keyword "version" then Some PackageVersion
  else if String.eqb keyword "scripts" then Some ScriptEntryPoint
  else if String.eqb keyword "entry_points" then Some ScriptEntryPoint
  else if String.eqb keyword "install_requires" then Some DependencyList
  else if String.eqb keyword "setup_requires" then Some DependencyList
  else if String.eqb keyword "extras_require" then Some DependencyList
  else None.

Definition in_listed_category (keyword : string) : bool :=
  match category_of keyword with
  | Some _ => true
  | None => false
  end.

End Category.

(** ** The shape of a packaging descriptor *)

Module Shape.
Import Ast.

Definition is_setuptools_import (s : stmt) : bool :=
  match s with
  | ImportFrom m _ => String.eqb m "setuptools"
  | Expr _ => false
  end.

(** A call of [setup] whose arguments are all keyword arguments with
    literal values. *)
Definition is_setup_invocation (s : stmt) : bool :=
  match s with
  | Expr (Call (Name f) [] keywords) =>
      String.eqb f "setup" && forallb (fun kw => is_literal (snd kw)) keywords
  | _ => false
  end.

(** A module is packaging metadata only when, the imports from
    setuptools apart, it is one invocation of [setup] with constant
    arguments. *)
Definition packaging_only (body : module_) : bool :=
  match filter (fun s => negb (is_setuptools_import s)) body with
  | [s] => is_setup_invocation s
  | _ => false
  end.

End Shape.

Import Source Ast Syntax Eval Metadata Requirement Category Shape.

(** * Properties *)

(** ** The text and its syntax tree *)

Lemma setup_py_length : String.length setup_py = 244.
Proof. reflexivity. Qed.

Lemma tokenize_setup_py :
  tokenize setup_py =
  Some [ NAME "from"; NAME "setuptools"; NAME "import"; NAME "setup"; NEWLINE;
         NAME "setup"; LPAR;
         NAME "name"; EQUAL; STRING "law-memo-pdf-to-epub"; COMMA;
         NAME "version"; EQUAL; STRING "1.0"; COMMA;
         NAME "py_modules"; EQUAL; LSQB; RSQB; COMMA;
         NAME "scripts"; EQUAL; LSQB; STRING "law-memo-pdf-to-epub"; RSQB; COMMA;
         NAME "install_requires"; EQUAL;
         LSQB; STRING "pdfminer.six"; COMMA; STRING "ebooklib"; RSQB;
         RPAR; NEWLINE ].
Proof. vm_compute. reflexivity. Qed.

Lemma parse_setup_py : parse_module setup_py = Some setup_module.
Proof. vm_compute. reflexivity. Qed.

(** ** Literals evaluate to their value in every state *)

Lemma bind_Some {A B : Type} (m : M A) (k : A -> M B) st a st' :
  m st = Some (a, st') -> bind m k st = k a st'.
Proof. intros H. unfold bind. rewrite H. reflexivity. Qed.

Lemma all_some_cons {A : Type} (o : option A) (l : list (option A)) vs :
  all_some (o :: l) = Some vs ->
  exists v vs', o = Some v /\ all_some l = Some vs' /\ vs = v :: vs'.
Proof.
  destruct o as [v|]; simpl; [|discriminate].
  destruct (all_some l) as [vs'|]; [|discriminate].
  intros [= <-]. exists v, vs'. auto.
Qed.

Lemma mapM_pure {A B : Type} (f : A -> M B) (g : A -> option B) l :
  Forall (fun x => forall v, g x = Some v -> forall st, f x st = Some (v, st)) l ->
  forall vs, all_some (map g l) = Some vs ->
  forall st, mapM f l st = Some (vs, st).
Proof.
  induction 1 as [|x r Hx _ IH]; intros vs Hvs st.
  - simpl in Hvs. injection Hvs as <-. reflexivity.
  - change (map g (x :: r)) with (g x :: map g r) in Hvs.
    apply all_some_cons in Hvs as (v & vs' & Hv & Hvs' & ->).
    change (mapM f (x :: r)) with
      (bind (f x) (fun v => bind (mapM f r) (fun vs => ret (v :: vs)))).
    rewrite (bind_Some _ _ _ _ _ (Hx v Hv st)).
    rewrite (bind_Some _ _ _ _ _ (IH vs' Hvs' st)).
    reflexivity.
Qed.

Lemma eval_literal e :
  forall v, literal_value e = Some v -> forall st, eval e st = Some (v, st).
Proof.
  induction e as [s|elts IH|id|func args keywords _ _ _] using expr_ind';
    intros v Hv st; simpl in Hv; try discriminate.
  - injection Hv as <-. reflexivity.
  - destruct (all_some (map literal_value elts)) as [vs|] eqn:Hvs;
      [|discriminate].
    injection Hv as <-.
    change (eval (List_ elts)) with
      (bind (mapM eval elts) (fun vs => ret (VList vs))).
    rewrite (bind_Some _ _ _ _ _ (mapM_pure eval literal_value elts IH vs Hvs st)).
    reflexivity.
Qed.

Lemma is_literal_value e : is_literal e = true -> is_Some (literal_value e).
Proof.
  induction e as [s|elts IH|id|func args keywords _ _ _] using expr_ind';
    simpl; intros Hlit; try discriminate.
  - eexists; reflexivity.
  - assert (Hall : is_Some (all_some (map literal_value elts))).
    { induction IH as [|x r Hx _ IHr]; simpl in *.
      - eexists; reflexivity.
      - apply andb_true_iff in Hlit as [Hx' Hr].
        destruct (Hx Hx') as [v ->]. destruct (IHr Hr) as [vs ->].
        eexists; reflexivity. }
    destruct Hall as [vs ->]. eexists; reflexivity.
Qed.

Lemma eval_keywords_literal keywords kvs :
  literal_keywords keywords = Some kvs ->
  forall st,
    mapM (fun kw => bind (eval (snd kw)) (fun v => ret (fst kw, v))) keywords st
    = Some (kvs, st).
Proof.
  intros H. apply mapM_pure with (2 := H).
  apply Forall_forall. intros [k x] _ v Hv st. simpl in *.
  destruct (literal_value x) as [w|] eqn:Hw; [|discriminate].
  injection Hv as <-.
  rewrite (bind_Some _ _ _ _ _ (eval_literal x w Hw st)). reflexivity.
Qed.

(** ** Running a descriptor *)

Lemma eval_setup_call st keywords kvs :
  globals st !! "setup" = Some VSetup ->
  literal_keywords keywords = Some kvs ->
  eval (Call (Name "setup") [] keywords) st
  = Some (VDistribution kvs,
          {| globals := globals st;
             distributions := distributions st ++ [kvs] |}).
Proof.
  intros Hsetup Hkvs.
  change (eval (Call (Name "setup") [] keywords)) with
    (bind (load_name "setup") (fun f =>
     bind (mapM eval []) (fun vs =>
     bind (mapM (fun kw => bind (eval (snd kw)) (fun v => ret (fst kw, v)))
             keywords) (fun kvs => call f vs kvs)))).
  assert (Hload : load_name "setup" st = Some (VSetup, st)).
  { unfold load_name. rewrite Hsetup. reflexivity. }
  rewrite (bind_Some _ _ _ _ _ Hload).
  change (mapM eval []) with (@ret (list value) []).
  unfold bind at 1. unfold ret at 1.
  rewrite (bind_Some _ _ _ _ _ (eval_keywords_literal keywords kvs Hkvs st)).
  reflexivity.
Qed.

Lemma run_descriptor g keywords kvs :
  literal_keywords keywords = Some kvs ->
  run g [ImportFrom "setuptools" ["setup"]; Expr (Call (Name "setup") [] keywords)]
  = Some {| globals := <["setup" := VSetup]> g; distributions := [kvs] |}.
Proof.
  intros Hkvs. unfold run.
  set (st0 := {| globals := g; distributions := [] |}).
  set (st1 := {| globals := <["setup" := VSetup]> g; distributions := [] |}).
  assert (Himport :
    exec_stmt (ImportFrom "setuptools" ["setup"]) st0 = Some (tt, st1))
    by reflexivity.
  assert (Hsetup : globals st1 !! "setup" = Some VSetup)
    by apply lookup_insert_eq.
  change (exec_module _) with
    (bind (exec_stmt (ImportFrom "setuptools" ["setup"])) (fun _ =>
     bind (bind (eval (Call (Name "setup") [] keywords)) (fun _ => ret tt))
       (fun _ => ret tt))).
  rewrite (bind_Some _ _ _ _ _ Himport).
  unfold bind. rewrite (eval_setup_call st1 keywords kvs Hsetup Hkvs).
  reflexivity.
Qed.

Lemma metadata_setup_py (g : gmap string value) :
  metadata g =
  Some [ ("name", VStr "law-memo-pdf-to-epub");
         ("version", VStr "1.0");
         ("py_modules", VList []);
         ("scripts", VList [VStr "law-memo-pdf-to-epub"]);
         ("install_requires", VList [VStr "pdfminer.six"; VStr "ebooklib"]) ].
Proof.
  unfold metadata, metadata_of. rewrite parse_setup_py.
  unfold setup_module, setup_call.
  rewrite (run_descriptor g setup_keywords _ eq_refl).
  reflexivity.
Qed.

Lemma literal_keywords_Some keywords :
  forallb (fun kw => is_literal (snd kw)) keywords = true ->
  is_Some (literal_keywords keywords).
Proof.
  unfold literal_keywords.
  induction keywords as [|[k x] r IH]; simpl; intros Hlit.
  - eexists; reflexivity.
  - apply andb_true_iff in Hlit as [Hx Hr].
    destruct (is_literal_value x Hx) as [v ->].
    destruct (IH Hr) as [kvs ->].
    eexists; reflexivity.
Qed.

(** A descriptor made of the import of [setup] and one call of it with
    literal keyword arguments yields the same metadata from every
    namespace: the values of the arguments. *)
Lemma descriptor_metadata text keywords :
  parse_module text =
    Some [ImportFrom "setuptools" ["setup"];
          Expr (Call (Name "setup") [] keywords)] ->
  forallb (fun kw => is_literal (snd kw)) keywords = true ->
  exists kvs,
    literal_keywords keywords = Some kvs /\
    forall g, metadata_of text g = Some kvs.
Proof.
  intros Hparse Hlit.
  destruct (literal_keywords_Some keywords Hlit) as [kvs Hkvs].
  exists kvs. split; [exact Hkvs|].
  intros g. unfold metadata_of. rewrite Hparse.
  rewrite (run_descriptor g keywords kvs Hkvs). reflexivity.
Qed.

(** ** The claims *)

(** C1: the setup call declares exactly two runtime dependencies:
    from every namespace, the [install_requires] argument is the
    two-element list ['pdfminer.six', 'ebooklib']. *)
Theorem install_requires_exact (g : gmap string value) :
  metadata g ≫= attr "install_requires"
    = Some (VList [VStr "pdfminer.six"; VStr "ebooklib"])
  /\ (metadata g ≫= attr "install_requires") ≫= as_strings
    = Some ["pdfminer.six"; "ebooklib"]
  /\ List.length <$> ((metadata g ≫= attr "install_requires") ≫= as_strings)
    = Some 2.
Proof. rewrite metadata_setup_py. repeat split. Qed.

(** C2: the setup call declares exactly one installable command: the
    [scripts] argument is the one-element list whose entry is the string
    'law-memo-pdf-to-epub'. *)
Theorem scripts_exact (g : gmap string value) :
  metadata g ≫= attr "scripts" = Some (VList [VStr "law-memo-pdf-to-epub"])
  /\ (metadata g ≫= attr "scripts") ≫= as_strings
    = Some ["law-memo-pdf-to-epub"]
  /\ List.length <$> ((metadata g ≫= attr "scripts") ≫= as_strings) = Some 1.
Proof. rewrite metadata_setup_py. repeat split. Qed.

(** C3, as stated, fails: it is not the case that every keyword argument
    the setup call passes belongs to one of the four listed categories,
    since [py_modules] is passed and belongs to none. *)
Lemma py_modules_outside_listed_categories :
  ~ (forall g attrs, metadata g = Some attrs ->
       forall keyword, In keyword (map fst attrs) ->
         in_listed_category keyword = true).
Proof.
  intros H.
  assert (Hin : In "py_modules"
                  (map fst [ ("name", VStr "law-memo-pdf-to-epub");
                             ("version", VStr "1.0");
                             ("py_modules", VList []);
                             ("scripts", VList [VStr "law-memo-pdf-to-epub"]);
                             ("install_requires",
                              VList [VStr "pdfminer.six"; VStr "ebooklib"]) ]))
    by (simpl; tauto).
  specialize (H ∅ _ (metadata_setup_py ∅) "py_modules" Hin).
  discriminate H.
Qed.

(** C3, amended: the setup call passes the five keyword arguments
    [name], [version], [py_modules], [scripts] and [install_requires], in
    that order; four of them carry the four listed categories, one each,
    and the only argument outside them is [py_modules], which is the
    empty list. *)
Theorem setup_keywords_categories (g : gmap string value) :
  map fst <$> metadata g
    = Some ["name"; "version"; "py_modules"; "scripts"; "install_requires"]
  /\ map (fun kv => category_of (fst kv)) <$> metadata g
    = Some [Some PackageName; Some PackageVersion; None;
            Some ScriptEntryPoint; Some DependencyList]
  /\ filter (fun k => negb (in_listed_category k)) <$> (map fst <$> metadata g)
    = Some ["py_modules"]
  /\ metadata g ≫= attr "py_modules" = Some (VList []).
Proof. rewrite metadata_setup_py. repeat split. Qed.

(** C4: the package declares no Python modules of its own: the
    [py_modules] argument is the empty list, and with no [packages] and no
    [ext_modules] argument either, the descriptor makes nothing
    importable. *)
Theorem py_modules_empty (g : gmap string value) :
  metadata g ≫= attr "py_modules" = Some (VList [])
  /\ importable <$> metadata g = Some [].
Proof. rewrite metadata_setup_py. split; reflexivity. Qed.

(** C5: the setup call declares a version: the [version] argument is the
    non-empty string '1.0'. *)
Theorem version_exact (g : gmap string value) :
  exists v,
    metadata g ≫= attr "version" = Some (VStr v)
    /\ v = "1.0" /\ 0 < String.length v.
Proof.
  exists "1.0". rewrite metadata_setup_py.
  split; [reflexivity|]. split; [reflexivity|]. simpl. lia.
Qed.

(** C6, as stated, fails: the source is not 12 lines long. *)
Lemma setup_py_not_12_lines :
  ~ (line_count setup_py = 12
     /\ packaging_only <$> parse_module setup_py = Some true).
Proof. intros [H _]. vm_compute in H. discriminate H. Qed.

(** C6, amended: the source is 11 lines long, each ended by a newline
    (cut at its newlines it falls into 12 pieces, of which the last is
    empty), and it is packaging metadata only: the import from setuptools
    apart, its one statement is a call of [setup] with keyword arguments
    that are all literals. *)
Theorem setup_py_11_lines_packaging_only :
  line_count setup_py = 11
  /\ count_newlines setup_py = 11
  /\ last_char setup_py = Some newline
  /\ List.length (split_newlines setup_py) = 12
  /\ List.last (split_newlines setup_py) "x" = ""
  /\ packaging_only <$> parse_module setup_py = Some true
  /\ List.length <$> parse_module setup_py = Some 2.
Proof. repeat split; vm_compute; reflexivity. Qed.

(** C7: every entry of [install_requires] is a bare distribution name
    without a version specifier: none of the comparison operators occurs
    in it, it is read as a requirement with no specifiers, and every
    installed version satisfies it, whatever the comparison of versions
    is. *)
Theorem install_requires_unconstrained (g : gmap string value) :
  exists deps,
    (metadata g ≫= attr "install_requires") ≫= as_strings = Some deps
    /\ Forall (fun d =>
         bare_name d = true
         /\ has_version_specifier d = false
         /\ parse_requirement d = Some {| req_name := d; req_specifiers := [] |})
       deps
    /\ forall (version : Type) (compare : string -> string -> version -> bool)
              (installed : version),
         Forall (fun d => satisfies version compare installed d = true) deps.
Proof.
  exists ["pdfminer.six"; "ebooklib"]. rewrite metadata_setup_py.
  split; [reflexivity|]. split.
  - repeat constructor.
  - intros version compare installed. repeat constructor.
Qed.

(** C8: the declared package name equals the declared command name: the
    [name] argument and the sole element of [scripts] are the same
    string, 'law-memo-pdf-to-epub'. *)
Theorem name_equals_script (g : gmap string value) :
  exists n,
    metadata g ≫= attr "name" = Some (VStr n)
    /\ metadata g ≫= attr "scripts" = Some (VList [VStr n])
    /\ n = "law-memo-pdf-to-epub".
Proof.
  exists "law-memo-pdf-to-epub". rewrite metadata_setup_py.
  repeat split.
Qed.

(** C9: evaluating the descriptor is deterministic: the arguments of
    [setup] are literals, whose values depend on no state, so the runs
    from any two namespaces succeed and record identical metadata,
    argument by argument. *)
Theorem metadata_deterministic :
  (exists kvs,
     literal_keywords setup_keywords = Some kvs
     /\ forall g : gmap string value, metadata g = Some kvs)
  /\ forall g1 g2 : gmap string value,
       metadata g1 = metadata g2
       /\ forall k, metadata g1 ≫= attr k = metadata g2 ≫= attr k.
Proof.
  destruct (descriptor_metadata setup_py setup_keywords parse_setup_py eq_refl)
    as (kvs & Hkvs & Hmeta).
  split.
  - exists kvs. split; [exact Hkvs | exact Hmeta].
  - intros g1 g2. unfold metadata. rewrite !Hmeta.
    split; [reflexivity | intros k; reflexivity].
Qed.

(** ** Further properties of the descriptor *)

Lemma attr_In (attrs : list (string * value)) :
  List.NoDup (map fst attrs) ->
  forall k v, attr k attrs = Some v <-> In (k, v) attrs.
Proof.
  induction attrs as [|[k' v'] r IH]; simpl; intros Hnd k v.
  - split; [discriminate | tauto].
  - apply List.NoDup_cons_iff in Hnd as [Hk' Hr].
    destruct (String.eqb_spec k k') as [->|Hne].
    + split.
      * intros [= ->]. left; reflexivity.
      * intros [[= <-]|Hin]; [reflexivity|].
        exfalso. apply Hk'. apply (List.in_map fst) in Hin. exact Hin.
    + rewrite (IH Hr). split.
      * intros Hin; right; exact Hin.
      * intros [[= <- <-]|Hin]; [congruence | exact Hin].
Qed.





(** X3: no keyword is passed twice, so the arguments the call records are
    exactly the bindings that looking a keyword up returns: a pair of a
    keyword and a value is among the recorded arguments if and only if
    the value is the one found under the keyword. *)
Theorem keywords_unambiguous (g : gmap string value)
    (attrs : list (string * value)) :
  metadata g = Some attrs ->
  List.NoDup (map fst attrs)
  /\ forall k v, attr k attrs = Some v <-> In (k, v) attrs.
Proof.
  rewrite metadata_setup_py. intros [= <-].
  assert (Hnd : List.NoDup
                  ["name"; "version"; "py_modules"; "scripts"; "install_requires"]).
  { repeat (constructor; [simpl; intuition discriminate|]). constructor. }
  split; [exact Hnd|]. apply attr_In. exact Hnd.
Qed.

Lemma keywords_unambiguous_witness :
  exists attrs,
    metadata ∅ = Some attrs
    /\ List.NoDup (map fst attrs)
    /\ forall k v, attr k attrs = Some v <-> In (k, v) attrs.
Proof.
  exists [ ("name", VStr "law-memo-pdf-to-epub");
           ("version", VStr "1.0");
           ("py_modules", VList []);
           ("scripts", VList [VStr "law-memo-pdf-to-epub"]);
           ("install_requires", VList [VStr "pdfminer.six"; VStr "ebooklib"]) ].
  split; [vm_compute; reflexivity|].
  apply (keywords_unambiguous ∅). vm_compute. reflexivity.
Defined.
